(** * crypto-signal-bot: the signal pipeline of [trading_bot.py]

    A shallow embedding of the bot's scheduled job ([check_for_signals]),
    its strategy ([generate_signal]), its market-data wrapper
    ([get_crypto_data]) and its registration command ([start]).

    Prices and indicator values are binary64 floats, as in pandas and
    numpy; an absent indicator value is NaN, as pandas stores it.  The
    exchange client, the indicator library and the Telegram transport are
    outside the repository: they enter as the fields of a [World], each a
    call that either returns or raises. *)

From Stdlib Require Import ZArith Floats Ascii DecimalString.
From stdpp Require Import gmap strings list.

Set Warnings "-inexact-float".
Local Open Scope Z_scope.

(** ** Python values *)

(** An exception is kept as its message, which is all the code prints. *)
Definition exn := string.

Inductive result (A : Type) : Type :=
| Ok (a : A)
| Raise (e : exn).
Arguments Ok {A} a.
Arguments Raise {A} e.

(** [str(n)] of a Python int. *)
Definition str_int (n : Z) : string := NilZero.string_of_int (Z.to_int n).

Definition nl : string := String (ascii_of_nat 10) "".

(** The police-light emoji U+1F6A8, as its four UTF-8 bytes. *)
Definition siren : string :=
  String (ascii_of_nat 240) (String (ascii_of_nat 159)
    (String (ascii_of_nat 154) (String (ascii_of_nat 168) ""))).

(** ** [format(x, ".4f")] on a binary64 float

    Python prints the exact binary value rounded half-to-even to four
    decimals, keeps the sign of a negative zero, and prints [nan] and
    [inf] for the non-finite values. *)
Module Fmt.

Definition round_half_even (num den : Z) : Z :=
  let q := num / den in
  let r := num mod den in
  match 2 * r ?= den with
  | Lt => q
  | Gt => q + 1
  | Eq => if Z.even q then q else q + 1
  end.

(** [m * 2^e * 10^4], rounded to an integer. *)
Definition scaled4 (m : positive) (e : Z) : Z :=
  if 0 <=? e then Z.pos m * 2 ^ e * 10000
  else round_half_even (Z.pos m * 10000) (2 ^ (- e)).

Definition digit (d : Z) : string :=
  String (ascii_of_nat (48 + Z.to_nat d)) "".

Definition frac4 (n : Z) : string :=
  digit (n / 1000 mod 10) +:+ digit (n / 100 mod 10)
    +:+ digit (n / 10 mod 10) +:+ digit (n mod 10).

Definition fixed4 (n : Z) : string :=
  NilZero.string_of_uint (N.to_uint (Z.to_N (n / 10000)))
    +:+ "." +:+ frac4 (n mod 10000).

Definition sign_str (s : bool) : string := if s then "-" else "".

Definition format_4f (x : float) : string :=
  match Prim2SF x with
  | S754_nan => "nan"
  | S754_infinity s => sign_str s +:+ "inf"
  | S754_zero s => sign_str s +:+ fixed4 0
  | S754_finite s m e => sign_str s +:+ fixed4 (scaled4 m e)
  end.

End Fmt.

(** ** The data frame *)

(** One row of [fetch_ohlcv], under the column names the code gives it. *)
Record Candle : Type := mkCandle {
  timestamp : Z;
  open : float;
  high : float;
  low : float;
  close : float;
  volume : float
}.

(** The six base columns are kept row-wise; the columns the indicator
    library appends are kept by name. *)
Record DataFrame : Type := mkDataFrame {
  candles : list Candle;
  appended : gmap string (list float)
}.

Definition closes (df : DataFrame) : list float := close <$> candles df.

(** [len(df)] *)
Definition len (df : DataFrame) : nat := length (candles df).

(** The value a column holds at the last row of the frame, NaN where it
    holds none. *)
Definition at_last (df : DataFrame) (col : list float) : float :=
  default nan (col !! (len df - 1)%nat).

(** [df[name] = col] for an appended column. *)
Definition df_append (name : string) (col : list float) (df : DataFrame)
  : DataFrame :=
  mkDataFrame (candles df) (<[name := col]> (appended df)).

(** [df.iloc[-1][name]] for an appended column: a [KeyError] when the column
    does not exist. *)
Definition iloc_last (df : DataFrame) (name : string) : result float :=
  match appended df !! name with
  | None => Raise ("KeyError: " +:+ name)
  | Some col => Ok (at_last df col)
  end.

(** [df.iloc[-1]['close']], on a frame that has a row. *)
Definition last_close (df : DataFrame) : float := at_last df (closes df).

(** ** The world outside the repository *)

Record World : Type := mkWorld {
  (** [ccxt.binance().fetch_ohlcv(symbol, timeframe=, limit=)], with the
      construction of the frame from the bars. *)
  fetch_ohlcv : string -> string -> nat -> result (list Candle);
  (** [df.ta.rsi(length=)] and [df.ta.ema(length=)]: the column computed
      from the closes. *)
  ta_rsi : nat -> list float -> result (list float);
  ta_ema : nat -> list float -> result (list float);
  (** [context.bot.send_message(chat_id=, text=, parse_mode=)] *)
  send_message : option Z -> string -> string -> result unit;
  (** [update.message.reply_text(text)] in the chat of the update. *)
  reply_text : Z -> string -> result unit
}.

(** ** Strategy: [generate_signal] *)

Definition signal_message (symbol timeframe : string) (entry_price tp sl : float)
  : string :=
  siren +:+ " **New AI Signal** " +:+ siren +:+ nl +:+ nl
  +:+ "**Pair:** " +:+ symbol +:+ nl
  +:+ "**Timeframe:** " +:+ timeframe +:+ nl
  +:+ "**Signal:** LONG (BUY)" +:+ nl
  +:+ "**Reason:** RSI Oversold in Uptrend" +:+ nl +:+ nl
  +:+ "**Entry:** `" +:+ Fmt.format_4f entry_price +:+ "`" +:+ nl
  +:+ "**Take Profit (TP):** `" +:+ Fmt.format_4f tp +:+ "`" +:+ nl
  +:+ "**Stop Loss (SL):** `" +:+ Fmt.format_4f sl +:+ "`".

(** The strategy proper, on the last row. *)
Definition strategy (symbol timeframe : string) (rsi_14 close_ ema_50 : float)
  : option string :=
  let is_oversold := (rsi_14 <? 35)%float in
  let is_uptrend := (ema_50 <? close_)%float in
  if is_oversold && is_uptrend then
    let entry_price := close_ in
    let tp := (entry_price * 1.03)%float in
    let sl := (entry_price * 0.985)%float in
    Some (signal_message symbol timeframe entry_price tp sl)
  else None.

(** [generate_signal] returns its result together with the frame as the call
    leaves it: the two indicator calls append their columns to the frame
    they are given. *)
Definition generate_signal (w : World) (df : option DataFrame)
    (symbol timeframe : string) : result (option string) * option DataFrame :=
  match df with
  | None => (Ok None, None)
  | Some d =>
    if (len d <? 50)%nat then (Ok None, Some d)
    else
      match ta_rsi w 14 (closes d) with
      | Raise e => (Raise e, Some d)
      | Ok rsi_col =>
        let d1 := df_append "RSI_14" rsi_col d in
        match ta_ema w 50 (closes d1) with
        | Raise e => (Raise e, Some d1)
        | Ok ema_col =>
          let d2 := df_append "EMA_50" ema_col d1 in
          match iloc_last d2 "RSI_14", iloc_last d2 "EMA_50" with
          | Ok rsi_14, Ok ema_50 =>
            (Ok (strategy symbol timeframe rsi_14 (last_close d2) ema_50), Some d2)
          | Raise e, _ | _, Raise e => (Raise e, Some d2)
          end
        end
      end
  end.

(** ** Process state and effects *)

Inductive level : Type := INFO | WARNING | ERROR.

(** What a handler does to the outside, in the order it does it. *)
Inductive event : Type :=
| EvLog (lvl : level) (msg : string)
| EvFetch (symbol timeframe : string) (limit : nat)
| EvEvaluate (symbol timeframe : string)
| EvSend (chat_id : option Z) (text parse_mode : string)
| EvReply (chat_id : Z) (text : string).

(** The module's one global, and the trace of effects so far. *)
Record State : Type := mkState {
  TARGET_CHAT_ID : option Z;
  trace : list event
}.

Definition emit (ev : event) (s : State) : State :=
  mkState (TARGET_CHAT_ID s) (trace s ++ [ev]).

(** A handler: it reads and writes the state, and returns or raises. *)
Definition M (A : Type) : Type := State -> result A * State.

Definition ret {A} (a : A) : M A := fun s => (Ok a, s).

Definition bind {A B} (m : M A) (k : A -> M B) : M B := fun s =>
  match m s with
  | (Ok a, s') => k a s'
  | (Raise e, s') => (Raise e, s')
  end.

Declare Scope handler_scope.
Delimit Scope handler_scope with handler.
Notation "'let*' x ':=' m 'in' k" := (bind m (fun x => k))
  (at level 10, x name, m at level 100, k at level 200) : handler_scope.
Notation "m '>>' k" := (bind m (fun _ => k))
  (at level 100, k at level 200, right associativity) : handler_scope.
Local Open Scope handler_scope.

(** [try: body  except Exception as e: handler(e)] *)
Definition try_except {A} (body : M A) (handler : exn -> M A) : M A := fun s =>
  match body s with
  | (Raise e, s') => handler e s'
  | r => r
  end.

(** A call to the outside, recorded before its outcome is known. *)
Definition call {A} (ev : event) (r : result A) : M A := fun s => (r, emit ev s).

Definition log (lvl : level) (msg : string) : M unit := call (EvLog lvl msg) (Ok tt).

Definition read_target : M (option Z) := fun s => (Ok (TARGET_CHAT_ID s), s).

Definition write_target (id : Z) : M unit := fun s =>
  (Ok tt, mkState (Some id) (trace s)).

Fixpoint for_each {A} (xs : list A) (body : A -> M unit) : M unit :=
  match xs with
  | [] => ret tt
  | x :: rest => body x >> for_each rest body
  end.

(** Truth value of [TARGET_CHAT_ID]: [None] and [0] are false. *)
Definition truthy_id (o : option Z) : bool :=
  match o with
  | None => false
  | Some id => negb (id =? 0)
  end.

(** Truth value of the result of [generate_signal]: [None] and the empty
    string are false. *)
Definition truthy_str (o : option string) : bool :=
  match o with
  | None | Some "" => false
  | Some _ => true
  end.

(** ** The handlers *)

Definition PAIRS_TO_SCAN : list (string * string) :=
  [("BTC/USDT", "15m"); ("ETH/USDT", "15m"); ("BTC/USDT", "1h"); ("SOL/USDT", "1h")].

Definition get_crypto_data (w : World) (symbol timeframe : string)
  : M (option DataFrame) :=
  try_except
    (let* bars := call (EvFetch symbol timeframe 100)
                       (fetch_ohlcv w symbol timeframe 100) in
     ret (Some (mkDataFrame bars ∅)))
    (fun e =>
       log ERROR ("Error fetching data for " +:+ symbol +:+ ": " +:+ e) >>
       ret None).

(** The body of the loop of [check_for_signals], for one pair. *)
Definition scan_pair (w : World) (pair : string * string) : M unit :=
  let '(symbol, timeframe) := pair in
  let* df := get_crypto_data w symbol timeframe in
  match df with
  | None => ret tt
  | Some _ =>
    let* signal := call (EvEvaluate symbol timeframe)
                        (fst (generate_signal w df symbol timeframe)) in
    if truthy_str signal then
      let text := default "" signal in
      log INFO ("Signal found for " +:+ symbol +:+ " on " +:+ timeframe
                +:+ ". Sending to Telegram.") >>
      let* chat_id := read_target in
      call (EvSend chat_id text "MarkdownV2")
           (send_message w chat_id text "MarkdownV2")
    else ret tt
  end.

Definition scan (w : World) (pairs : list (string * string)) : M unit :=
  for_each pairs (scan_pair w).

Definition warning_unset : event :=
  EvLog WARNING "TARGET_CHAT_ID is not set. Cannot send signals.".

Definition check_for_signals (w : World) : M unit :=
  let* chat := read_target in
  if negb (truthy_id chat) then
    log WARNING "TARGET_CHAT_ID is not set. Cannot send signals."
  else
    log INFO "Scheduler running: Checking for new signals..." >>
    scan w PAIRS_TO_SCAN.

Definition start (w : World) (user_chat_id : Z) : M unit :=
  let* target := read_target in
  match target with
  | None =>
    write_target user_chat_id >>
    log INFO ("Target chat ID has been set to: " +:+ str_int user_chat_id) >>
    call (EvReply user_chat_id
            ("Hello! I will now send trading signals to this chat." +:+ nl
             +:+ "Your Chat ID is: `" +:+ str_int user_chat_id +:+ "`. I have saved it."))
         (reply_text w user_chat_id
            ("Hello! I will now send trading signals to this chat." +:+ nl
             +:+ "Your Chat ID is: `" +:+ str_int user_chat_id +:+ "`. I have saved it."))
  | Some id =>
    if id =? user_chat_id then
      call (EvReply user_chat_id "I'm already configured to send signals here.")
           (reply_text w user_chat_id "I'm already configured to send signals here.")
    else
      call (EvReply user_chat_id "I'm already configured to send signals to another user.")
           (reply_text w user_chat_id "I'm already configured to send signals to another user.")
  end.

(** ** Reading a trace *)

Definition is_fetch (ev : event) : bool :=
  match ev with EvFetch _ _ _ => true | _ => false end.

Definition is_evaluate (ev : event) : bool :=
  match ev with EvEvaluate _ _ => true | _ => false end.

Definition is_send (ev : event) : bool :=
  match ev with EvSend _ _ _ => true | _ => false end.

(** The events a handler adds to the trace of the state it starts in. *)
Definition added {A} (m : M A) (s : State) : list event :=
  drop (length (trace s)) (trace (snd (m s))).

(** A handler that never writes the global. *)
Definition keeps_target {A} (m : M A) : Prop :=
  forall s, TARGET_CHAT_ID (snd (m s)) = TARGET_CHAT_ID s.

(** A handler whose outcome and effects depend on the global only, not on
    the trace so far, which it only extends. *)
Definition uniform {A} (m : M A) : Prop :=
  forall chat, exists r chat' evs,
    forall tr, m (mkState chat tr) = (r, mkState chat' (tr ++ evs)).

(** ** MarkdownV2

    The text goes out with [parse_mode='MarkdownV2'], whose reserved
    characters count as text only when a backslash precedes them. *)

Definition reserved_chars : string := "_*[]()~`>#+-=|{}.!".

Definition is_reserved (c : ascii) : bool :=
  existsb (Ascii.eqb c) (String.list_ascii_of_string reserved_chars).

(** Whether every reserved character of [s] follows a backslash;
    [after_backslash] tells that the character before [s] was an escaping
    backslash. *)
Fixpoint escaped_from (after_backslash : bool) (s : string) : bool :=
  match s with
  | EmptyString => true
  | String c rest =>
    if after_backslash then escaped_from false rest
    else if Ascii.eqb c "\"%char then escaped_from true rest
    else if is_reserved c then false
    else escaped_from false rest
  end.

Definition markdown_escaped (s : string) : bool := escaped_from false s.

(** What the job may send: the alert template, as MarkdownV2. *)
Definition alert_event (ev : event) : Prop :=
  match ev with
  | EvSend _ text parse_mode =>
    parse_mode = "MarkdownV2"
    /\ exists symbol timeframe c,
        text = signal_message symbol timeframe c (c * 1.03)%float (c * 0.985)%float
  | _ => True
  end.

(** A handler that extends the trace by events that satisfy [P], and whose
    value, when it returns, satisfies [Q]. *)
Definition adds {A} (P : event -> Prop) (Q : A -> Prop) (m : M A) : Prop :=
  forall s, exists evs,
    trace (snd (m s)) = trace s ++ evs
    /\ Forall P evs
    /\ forall a, fst (m s) = Ok a -> Q a.

(** ** Sample inputs *)

Definition candle_at (c : float) : Candle := mkCandle 0 c c c c 1.

(** A frame of [n] candles that all close at [c]. *)
Definition flat_frame (n : nat) (c : float) : DataFrame :=
  mkDataFrame (replicate n (candle_at c)) ∅.

(** A world in which every pair has 50 candles closing at [c], the
    indicator columns are constant, and every call returns. *)
Definition calm_world (c rsi ema : float) : World := {|
  fetch_ohlcv := fun _ _ _ => Ok (replicate 50 (candle_at c));
  ta_rsi := fun _ cs => Ok (replicate (length cs) rsi);
  ta_ema := fun _ cs => Ok (replicate (length cs) ema);
  send_message := fun _ _ _ => Ok tt;
  reply_text := fun _ _ => Ok tt
|}.

(** The subscriber every sample run starts with. *)
Definition subscribed : State := mkState (Some 42) [].

(** The exchange fails for BTC/USDT on 15m and answers for every other
    pair. *)
Definition fetch_fails_world : World := {|
  fetch_ohlcv := fun symbol timeframe _ =>
    if String.eqb symbol "BTC/USDT" && String.eqb timeframe "15m"
    then Raise "NetworkError: binance GET timed out"
    else Ok (replicate 50 (candle_at 100));
  ta_rsi := fun _ cs => Ok (replicate (length cs) 30%float);
  ta_ema := fun _ cs => Ok (replicate (length cs) 95%float);
  send_message := fun _ _ _ => Ok tt;
  reply_text := fun _ _ => Ok tt
|}.

(** Every pair triggers, and Telegram refuses the message. *)
Definition send_fails_world : World := {|
  fetch_ohlcv := fun _ _ _ => Ok (replicate 50 (candle_at 100));
  ta_rsi := fun _ cs => Ok (replicate (length cs) 30%float);
  ta_ema := fun _ cs => Ok (replicate (length cs) 95%float);
  send_message := fun _ _ _ => Raise "BadRequest: can't parse entities";
  reply_text := fun _ _ => Ok tt
|}.

(** The indicator library raises on the candles of BTC/USDT on 15m, which
    come back with a NaN close, and works on every other pair. *)
Definition evaluation_fails_world : World := {|
  fetch_ohlcv := fun symbol timeframe _ =>
    if String.eqb symbol "BTC/USDT" && String.eqb timeframe "15m"
    then Ok (replicate 50 (candle_at nan))
    else Ok (replicate 50 (candle_at 100));
  ta_rsi := fun _ cs =>
    if is_nan (default 0%float (head cs)) then Raise "ValueError: cannot convert float NaN"
    else Ok (replicate (length cs) 30%float);
  ta_ema := fun _ cs => Ok (replicate (length cs) 95%float);
  send_message := fun _ _ _ => Ok tt;
  reply_text := fun _ _ => Ok tt
|}.

(** The claim of deduplication, for two consecutive runs that start in [s]:
    an alert pushed in the first run is not pushed again in the second. *)
Definition deduplicated (w : World) (s : State) : Prop :=
  let s1 := snd (check_for_signals w s) in
  forall ev, is_send ev = true ->
    ev ∈ added (check_for_signals w) s ->
    ev ∉ added (check_for_signals w) s1.

(** The alert of the sample worlds for one pair. *)
Definition sample_alert (symbol timeframe : string) : event :=
  EvSend (Some 42) (signal_message symbol timeframe 100 103 98.5) "MarkdownV2".

(** ** What one run does, as a value

    The result and the events of the loop body, of the loop and of the job,
    as functions of the world and of the global the run starts with.  The
    handlers are shown to compute them ([scan_pair_runs], [scan_runs],
    [check_for_signals_runs]). *)

Definition fetch_event (pair : string * string) : event :=
  EvFetch (fst pair) (snd pair) 100.

Definition pair_outcome (w : World) (chat : option Z) (pair : string * string)
  : result unit * list event :=
  let '(symbol, timeframe) := pair in
  match fetch_ohlcv w symbol timeframe 100 with
  | Raise e =>
    (Ok tt,
     [EvFetch symbol timeframe 100;
      EvLog ERROR ("Error fetching data for " +:+ symbol +:+ ": " +:+ e)])
  | Ok bars =>
    match fst (generate_signal w (Some (mkDataFrame bars ∅)) symbol timeframe) with
    | Raise e => (Raise e, [EvFetch symbol timeframe 100; EvEvaluate symbol timeframe])
    | Ok signal =>
      if truthy_str signal then
        (send_message w chat (default "" signal) "MarkdownV2",
         [EvFetch symbol timeframe 100; EvEvaluate symbol timeframe;
          EvLog INFO ("Signal found for " +:+ symbol +:+ " on " +:+ timeframe
                      +:+ ". Sending to Telegram.");
          EvSend chat (default "" signal) "MarkdownV2"])
      else (Ok tt, [EvFetch symbol timeframe 100; EvEvaluate symbol timeframe])
    end
  end.

Fixpoint scan_outcome (w : World) (chat : option Z) (pairs : list (string * string))
  : result unit * list event :=
  match pairs with
  | [] => (Ok tt, [])
  | p :: rest =>
    match pair_outcome w chat p with
    | (Ok _, evs) => (fst (scan_outcome w chat rest), evs ++ snd (scan_outcome w chat rest))
    | (Raise e, evs) => (Raise e, evs)
    end
  end.

Definition job_outcome (w : World) (chat : option Z) : result unit * list event :=
  if truthy_id chat then
    (fst (scan_outcome w chat PAIRS_TO_SCAN),
     EvLog INFO "Scheduler running: Checking for new signals..."
       :: snd (scan_outcome w chat PAIRS_TO_SCAN))
  else (Ok tt, [warning_unset]).

(** ** The process

    [main] registers [start] for the /start command and [check_for_signals]
    as the interval job; the bot then handles one update or one tick after
    the other.  An exception ends the handler that raised it, not the
    process, and the state is as that handler left it.  The world may differ
    from one step to the next. *)

Inductive update : Type :=
| Command_start (chat_id : Z)
| Tick.

Definition handle (w : World) (u : update) : M unit :=
  match u with
  | Command_start chat_id => start w chat_id
  | Tick => check_for_signals w
  end.

Fixpoint process (steps : list (World * update)) (s : State) : State :=
  match steps with
  | [] => s
  | (w, u) :: rest => process rest (snd (handle w u s))
  end.

(** * Properties *)

(** ** Floats: comparisons with NaN *)

Lemma SFcompare_refl (f : spec_float) :
  f <> S754_nan -> SFcompare f f = Some Eq.
Proof.
  destruct f as [s|s| |s m e]; intros Hf; try congruence.
  - destruct s; reflexivity.
  - destruct s; reflexivity.
  - assert (He : IntDef.Z.compare e e = Eq) by exact (Z.compare_refl e).
    assert (Hm : PosDef.Pos.compare_cont Eq m m = Eq)
      by exact (Pos.compare_cont_refl m Eq).
    cbn. rewrite He, Hm. destruct s; reflexivity.
Qed.

Lemma is_nan_Prim2SF (x : float) : is_nan x = true -> Prim2SF x = S754_nan.
Proof.
  unfold is_nan. rewrite FloatAxioms.eqb_spec. unfold SFeqb. intros H.
  destruct (Prim2SF x) as [s|s| |s m e] eqn:E; try reflexivity;
    rewrite SFcompare_refl in H; discriminate.
Qed.

Lemma ltb_nan_l (x y : float) : is_nan x = true -> (x <? y)%float = false.
Proof.
  intros H. rewrite FloatAxioms.ltb_spec, (is_nan_Prim2SF x H). reflexivity.
Qed.

Lemma ltb_nan_r (x y : float) : is_nan y = true -> (x <? y)%float = false.
Proof.
  intros H. rewrite FloatAxioms.ltb_spec, (is_nan_Prim2SF y H). unfold SFltb.
  destruct (Prim2SF x) as [s|s| |s m e]; reflexivity.
Qed.

(** ** The strategy *)

Lemma strategy_fires symbol timeframe (rsi_14 c ema_50 : float) :
  (rsi_14 <? 35)%float = true -> (ema_50 <? c)%float = true ->
  strategy symbol timeframe rsi_14 c ema_50
  = Some (signal_message symbol timeframe c (c * 1.03)%float (c * 0.985)%float).
Proof. intros H1 H2. unfold strategy. rewrite H1, H2. reflexivity. Qed.

Lemma strategy_silent symbol timeframe (rsi_14 c ema_50 : float) :
  (rsi_14 <? 35)%float = false \/ (ema_50 <? c)%float = false ->
  strategy symbol timeframe rsi_14 c ema_50 = None.
Proof.
  intros [H|H]; unfold strategy; rewrite H; [reflexivity|].
  rewrite andb_false_r. reflexivity.
Qed.

Lemma strategy_Some symbol timeframe (rsi_14 c ema_50 : float) (msg : string) :
  strategy symbol timeframe rsi_14 c ema_50 = Some msg ->
  (rsi_14 <? 35)%float = true /\ (ema_50 <? c)%float = true
  /\ msg = signal_message symbol timeframe c (c * 1.03)%float (c * 0.985)%float.
Proof.
  unfold strategy.
  destruct (rsi_14 <? 35)%float, (ema_50 <? c)%float; cbn; intros H;
    try discriminate.
  injection H as <-. auto.
Qed.

(** What [generate_signal] does on a frame that is long enough, when both
    indicator calls return: the strategy on the last row, and the frame with
    the two columns appended. *)
Lemma generate_signal_runs w d symbol timeframe rsi_col ema_col :
  (50 <= len d)%nat ->
  ta_rsi w 14 (closes d) = Ok rsi_col ->
  ta_ema w 50 (closes d) = Ok ema_col ->
  generate_signal w (Some d) symbol timeframe
  = (Ok (strategy symbol timeframe (at_last d rsi_col) (last_close d)
           (at_last d ema_col)),
     Some (df_append "EMA_50" ema_col (df_append "RSI_14" rsi_col d))).
Proof.
  intros Hlen Hrsi Hema. unfold generate_signal.
  destruct (Nat.ltb_spec (len d) 50) as [Hlt|_]; [lia|].
  rewrite Hrsi.
  change (closes (df_append "RSI_14" rsi_col d)) with (closes d).
  rewrite Hema. unfold iloc_last. cbn [appended df_append].
  rewrite lookup_insert_ne by discriminate.
  rewrite !lookup_insert_eq. reflexivity.
Qed.

Lemma generate_signal_short w d symbol timeframe :
  (len d < 50)%nat ->
  generate_signal w (Some d) symbol timeframe = (Ok None, Some d).
Proof.
  intros Hlen. unfold generate_signal.
  destruct (Nat.ltb_spec (len d) 50) as [_|Hge]; [reflexivity|lia].
Qed.

(** ** Claims about the evaluator *)

(** C1. On a series of at least 50 candles for which both indicator calls
    return, [generate_signal] yields a message exactly when RSI(14) < 35 and
    close > EMA(50) on the last row.  The message is then the LONG text
    with the pair, the timeframe, the reason "RSI Oversold in Uptrend", the
    entry = close, the take profit = close * 1.03 and the stop loss =
    close * 0.985, each printed with four decimals.  With close = 100,
    EMA = 95, RSI = 30 the message carries 100.0000, 103.0000 and 98.5000;
    with close = 100, EMA = 105, RSI = 20 there is no signal. *)
Theorem generate_signal_long_iff w d symbol timeframe rsi_col ema_col :
  (50 <= len d)%nat ->
  ta_rsi w 14 (closes d) = Ok rsi_col ->
  ta_ema w 50 (closes d) = Ok ema_col ->
  let rsi_14 := at_last d rsi_col in
  let ema_50 := at_last d ema_col in
  let c := last_close d in
  let out := fst (generate_signal w (Some d) symbol timeframe) in
  ((exists msg, out = Ok (Some msg))
     <-> (rsi_14 <? 35)%float = true /\ (ema_50 <? c)%float = true)
  /\ (out = Ok None
      <-> ~ ((rsi_14 <? 35)%float = true /\ (ema_50 <? c)%float = true))
  /\ (forall msg, out = Ok (Some msg) ->
       msg = siren +:+ " **New AI Signal** " +:+ siren +:+ nl +:+ nl
             +:+ "**Pair:** " +:+ symbol +:+ nl
             +:+ "**Timeframe:** " +:+ timeframe +:+ nl
             +:+ "**Signal:** LONG (BUY)" +:+ nl
             +:+ "**Reason:** RSI Oversold in Uptrend" +:+ nl +:+ nl
             +:+ "**Entry:** `" +:+ Fmt.format_4f c +:+ "`" +:+ nl
             +:+ "**Take Profit (TP):** `"
             +:+ Fmt.format_4f (c * 1.03)%float +:+ "`" +:+ nl
             +:+ "**Stop Loss (SL):** `"
             +:+ Fmt.format_4f (c * 0.985)%float +:+ "`")
  /\ (c = 100%float -> ema_50 = 95%float -> rsi_14 = 30%float ->
      out = Ok (Some
              (siren +:+ " **New AI Signal** " +:+ siren +:+ nl +:+ nl
               +:+ "**Pair:** " +:+ symbol +:+ nl
               +:+ "**Timeframe:** " +:+ timeframe +:+ nl
               +:+ "**Signal:** LONG (BUY)" +:+ nl
               +:+ "**Reason:** RSI Oversold in Uptrend" +:+ nl +:+ nl
               +:+ "**Entry:** `100.0000`" +:+ nl
               +:+ "**Take Profit (TP):** `103.0000`" +:+ nl
               +:+ "**Stop Loss (SL):** `98.5000`")))
  /\ (c = 100%float -> ema_50 = 105%float -> rsi_14 = 20%float -> out = Ok None).
Proof.
  intros Hlen Hrsi Hema rsi_14 ema_50 c out.
  assert (Hout : out = Ok (strategy symbol timeframe rsi_14 c ema_50)).
  { subst out. rewrite (generate_signal_runs _ _ _ _ _ _ Hlen Hrsi Hema).
    reflexivity. }
  clearbody out rsi_14 ema_50 c. subst out.
  split; [split|split; [split|split; [|split]]].
  - intros [msg Hmsg]. injection Hmsg as Hmsg.
    apply strategy_Some in Hmsg. tauto.
  - intros [H1 H2]. eexists. rewrite (strategy_fires _ _ _ _ _ H1 H2).
    reflexivity.
  - intros H [H1 H2]. rewrite (strategy_fires _ _ _ _ _ H1 H2) in H.
    discriminate.
  - intros H. f_equal. apply strategy_silent.
    destruct (rsi_14 <? 35)%float; [|auto].
    destruct (ema_50 <? c)%float; [|auto]. exfalso; auto.
  - intros msg Hmsg. injection Hmsg as Hmsg.
    apply strategy_Some in Hmsg. destruct Hmsg as (_ & _ & ->). reflexivity.
  - intros -> -> ->. reflexivity.
  - intros -> -> ->. reflexivity.
Qed.

Lemma generate_signal_long_iff_witness :
  fst (generate_signal (calm_world 100 30 95) (Some (flat_frame 50 100))
         "BTC/USDT" "15m")
  = Ok (Some
          (siren +:+ " **New AI Signal** " +:+ siren +:+ nl +:+ nl
           +:+ "**Pair:** BTC/USDT" +:+ nl
           +:+ "**Timeframe:** 15m" +:+ nl
           +:+ "**Signal:** LONG (BUY)" +:+ nl
           +:+ "**Reason:** RSI Oversold in Uptrend" +:+ nl +:+ nl
           +:+ "**Entry:** `100.0000`" +:+ nl
           +:+ "**Take Profit (TP):** `103.0000`" +:+ nl
           +:+ "**Stop Loss (SL):** `98.5000`")).
Proof.
  assert (Hlen : (50 <= len (flat_frame 50 100))%nat) by (vm_compute; lia).
  destruct (generate_signal_long_iff (calm_world 100 30 95) (flat_frame 50 100)
              "BTC/USDT" "15m" (replicate 50 30%float) (replicate 50 95%float)
              Hlen eq_refl eq_refl) as (_ & _ & _ & Hscenario & _).
  apply Hscenario; reflexivity.
Defined.

(** C5. A series shorter than 50 candles gives no signal, and so does a
    series whose RSI(14) or EMA(50) is absent (NaN) on the last row. *)
Theorem generate_signal_none_when_undefined w d symbol timeframe :
  ((len d < 50)%nat ->
     generate_signal w (Some d) symbol timeframe = (Ok None, Some d))
  /\ (forall rsi_col ema_col,
       ta_rsi w 14 (closes d) = Ok rsi_col ->
       ta_ema w 50 (closes d) = Ok ema_col ->
       is_nan (at_last d rsi_col) = true \/ is_nan (at_last d ema_col) = true ->
       fst (generate_signal w (Some d) symbol timeframe) = Ok None).
Proof.
  split; [apply generate_signal_short|].
  intros rsi_col ema_col Hrsi Hema Hnan.
  destruct (Nat.lt_ge_cases (len d) 50) as [Hlt|Hge].
  - rewrite generate_signal_short by assumption. reflexivity.
  - rewrite (generate_signal_runs _ _ _ _ _ _ Hge Hrsi Hema). cbn [fst].
    f_equal. apply strategy_silent.
    destruct Hnan as [Hnan|Hnan].
    + left. apply ltb_nan_l, Hnan.
    + right. apply ltb_nan_l, Hnan.
Qed.

Lemma generate_signal_none_when_undefined_witness :
  generate_signal (calm_world 100 30 95) (Some (flat_frame 49 100)) "BTC/USDT" "15m"
  = (Ok None, Some (flat_frame 49 100))
  /\ fst (generate_signal (calm_world 100 nan 95) (Some (flat_frame 50 100))
            "BTC/USDT" "15m") = Ok None.
Proof.
  split.
  - apply (generate_signal_none_when_undefined (calm_world 100 30 95)
             (flat_frame 49 100) "BTC/USDT" "15m").
    vm_compute. lia.
  - apply (proj2 (generate_signal_none_when_undefined (calm_world 100 nan 95)
                    (flat_frame 50 100) "BTC/USDT" "15m")
             (replicate 50 nan) (replicate 50 95%float) eq_refl eq_refl).
    left. reflexivity.
Defined.

(** ** Handlers and the global *)

Lemma keeps_target_ret {A} (a : A) : keeps_target (ret a).
Proof. intros s. reflexivity. Qed.

Lemma keeps_target_call {A} ev (r : result A) : keeps_target (call ev r).
Proof. intros s. reflexivity. Qed.

Lemma keeps_target_read : keeps_target read_target.
Proof. intros s. reflexivity. Qed.

Lemma keeps_target_bind {A B} (m : M A) (k : A -> M B) :
  keeps_target m -> (forall a, keeps_target (k a)) -> keeps_target (bind m k).
Proof.
  intros Hm Hk s. unfold bind. specialize (Hm s).
  destruct (m s) as [[a|e] s']; cbn in *; [|assumption].
  rewrite Hk. assumption.
Qed.

Lemma keeps_target_try {A} (body : M A) (handler : exn -> M A) :
  keeps_target body -> (forall e, keeps_target (handler e)) ->
  keeps_target (try_except body handler).
Proof.
  intros Hb Hh s. unfold try_except. specialize (Hb s).
  destruct (body s) as [[a|e] s']; cbn in *; [assumption|].
  rewrite Hh. assumption.
Qed.

Lemma keeps_target_for_each {A} (xs : list A) (body : A -> M unit) :
  (forall x, keeps_target (body x)) -> keeps_target (for_each xs body).
Proof.
  intros Hb. induction xs as [|x xs IH]; cbn [for_each].
  - apply keeps_target_ret.
  - apply keeps_target_bind; [apply Hb|intros _; apply IH].
Qed.

Lemma keeps_target_get_crypto_data w symbol timeframe :
  keeps_target (get_crypto_data w symbol timeframe).
Proof.
  apply keeps_target_try.
  - apply keeps_target_bind; [apply keeps_target_call|].
    intros bars. apply keeps_target_ret.
  - intros e. apply keeps_target_bind; [apply keeps_target_call|].
    intros _. apply keeps_target_ret.
Qed.

Lemma keeps_target_scan_pair w pair : keeps_target (scan_pair w pair).
Proof.
  destruct pair as [symbol timeframe]. unfold scan_pair.
  apply keeps_target_bind; [apply keeps_target_get_crypto_data|].
  intros [d|]; [|apply keeps_target_ret].
  apply keeps_target_bind; [apply keeps_target_call|].
  intros signal. destruct (truthy_str signal); [|apply keeps_target_ret].
  apply keeps_target_bind; [apply keeps_target_call|]. intros _.
  apply keeps_target_bind; [apply keeps_target_read|]. intros chat_id.
  apply keeps_target_call.
Qed.

Lemma keeps_target_check_for_signals w : keeps_target (check_for_signals w).
Proof.
  unfold check_for_signals.
  apply keeps_target_bind; [apply keeps_target_read|]. intros chat.
  destruct (negb (truthy_id chat)); [apply keeps_target_call|].
  apply keeps_target_bind; [apply keeps_target_call|]. intros _.
  apply keeps_target_for_each. intros pair. apply keeps_target_scan_pair.
Qed.

(** ** The registration command *)

(** C2. Once the slot holds [id], [start] from the same chat replies that it
    is already configured here, and [start] from another chat replies that
    the bot is configured for another user; in both cases the slot still
    holds [id].  No run of [start] or of the scheduled job leaves the slot
    empty after it was set. *)
Theorem start_when_registered w (id id2 : Z) (tr : list event) :
  id2 <> id ->
  start w id (mkState (Some id) tr)
  = (reply_text w id "I'm already configured to send signals here.",
     mkState (Some id)
       (tr ++ [EvReply id "I'm already configured to send signals here."]))
  /\ start w id2 (mkState (Some id) tr)
    = (reply_text w id2 "I'm already configured to send signals to another user.",
       mkState (Some id)
         (tr ++ [EvReply id2 "I'm already configured to send signals to another user."]))
  /\ (forall s any, TARGET_CHAT_ID (snd (start w any s)) <> None)
  /\ (forall s, TARGET_CHAT_ID (snd (check_for_signals w s)) = TARGET_CHAT_ID s).
Proof.
  intros Hne. repeat split.
  - unfold start, bind, read_target, call, emit. cbn.
    rewrite Z.eqb_refl. reflexivity.
  - unfold start, bind, read_target, call, emit. cbn.
    destruct (Z.eqb_spec id id2) as [->|_]; [congruence|reflexivity].
  - intros [[t|] tr'] any; unfold start, bind, read_target, call, emit; cbn.
    + destruct (t =? any); cbn; discriminate.
    + discriminate.
  - apply keeps_target_check_for_signals.
Qed.

Lemma start_when_registered_witness :
  snd (start (calm_world 100 30 95) 7 (snd (start (calm_world 100 30 95) 7
         (mkState None []))))
  = mkState (Some 7)
      [EvLog INFO "Target chat ID has been set to: 7";
       EvReply 7 ("Hello! I will now send trading signals to this chat." +:+ nl
                  +:+ "Your Chat ID is: `7`. I have saved it.");
       EvReply 7 "I'm already configured to send signals here."]
  /\ start (calm_world 100 30 95) 8 (mkState (Some 7) [])
     = (Ok tt, mkState (Some 7)
         [EvReply 8 "I'm already configured to send signals to another user."]).
Proof.
  assert (Hne : 8 <> 7) by lia.
  destruct (start_when_registered (calm_world 100 30 95) 7 8 [] Hne)
    as (_ & Hother & _).
  split; [reflexivity|exact Hother].
Defined.

(** ** The scheduled job with no subscriber *)

Lemma check_for_signals_unset w (s : State) :
  truthy_id (TARGET_CHAT_ID s) = false ->
  check_for_signals w s = (Ok tt, emit warning_unset s).
Proof.
  intros H. unfold check_for_signals, bind, read_target. cbn. rewrite H.
  reflexivity.
Qed.

(** C6. With no subscriber registered, the job raises nothing, calls
    [send_message] not once, logs the condition, and leaves the state as it
    was: nothing is kept for later delivery. *)
Theorem no_subscriber_no_send w (tr : list event) :
  let run := check_for_signals w (mkState None tr) in
  fst run = Ok tt
  /\ TARGET_CHAT_ID (snd run) = None
  /\ filter is_send (added (check_for_signals w) (mkState None tr)) = []
  /\ warning_unset ∈ added (check_for_signals w) (mkState None tr).
Proof.
  cbn zeta. unfold added.
  rewrite check_for_signals_unset by reflexivity. cbn.
  rewrite drop_app_length. repeat split.
  apply list_elem_of_singleton. reflexivity.
Qed.

(** C10. With no subscriber registered, all the job does is log one
    warning: it fetches no market data and evaluates no pair. *)
Theorem no_subscriber_no_work w (tr : list event) :
  check_for_signals w (mkState None tr) = (Ok tt, mkState None (tr ++ [warning_unset]))
  /\ added (check_for_signals w) (mkState None tr) = [warning_unset]
  /\ filter is_fetch (added (check_for_signals w) (mkState None tr)) = []
  /\ filter is_evaluate (added (check_for_signals w) (mkState None tr)) = [].
Proof.
  unfold added. rewrite check_for_signals_unset by reflexivity. cbn.
  rewrite drop_app_length. repeat split.
Qed.

(** ** Handlers and the trace *)

Lemma uniform_ret {A} (a : A) : uniform (ret a).
Proof.
  intros chat. exists (Ok a), chat, []. intros tr.
  unfold ret. rewrite app_nil_r. reflexivity.
Qed.

Lemma uniform_call {A} ev (r : result A) : uniform (call ev r).
Proof. intros chat. exists r, chat, [ev]. intros tr. reflexivity. Qed.

Lemma uniform_bind {A B} (m : M A) (k : A -> M B) :
  uniform m -> (forall a, uniform (k a)) -> uniform (bind m k).
Proof.
  intros Hm Hk chat. destruct (Hm chat) as ([a|e] & chat1 & evs1 & H1).
  - destruct (Hk a chat1) as (r & chat2 & evs2 & H2).
    exists r, chat2, (evs1 ++ evs2). intros tr.
    unfold bind. rewrite H1, H2, app_assoc. reflexivity.
  - exists (Raise e), chat1, evs1. intros tr.
    unfold bind. rewrite H1. reflexivity.
Qed.

Lemma uniform_try {A} (body : M A) (handler : exn -> M A) :
  uniform body -> (forall e, uniform (handler e)) ->
  uniform (try_except body handler).
Proof.
  intros Hb Hh chat. destruct (Hb chat) as ([a|e] & chat1 & evs1 & H1).
  - exists (Ok a), chat1, evs1. intros tr.
    unfold try_except. rewrite H1. reflexivity.
  - destruct (Hh e chat1) as (r & chat2 & evs2 & H2).
    exists r, chat2, (evs1 ++ evs2). intros tr.
    unfold try_except. rewrite H1, H2, app_assoc. reflexivity.
Qed.

Lemma uniform_for_each {A} (xs : list A) (body : A -> M unit) :
  (forall x, uniform (body x)) -> uniform (for_each xs body).
Proof.
  intros Hb. induction xs as [|x xs IH]; cbn [for_each].
  - apply uniform_ret.
  - apply uniform_bind; [apply Hb|intros _; apply IH].
Qed.

Lemma uniform_get_crypto_data w symbol timeframe :
  uniform (get_crypto_data w symbol timeframe).
Proof.
  apply uniform_try.
  - apply uniform_bind; [apply uniform_call|]. intros bars. apply uniform_ret.
  - intros e. apply uniform_bind; [apply uniform_call|].
    intros _. apply uniform_ret.
Qed.

Lemma uniform_scan_pair w pair : uniform (scan_pair w pair).
Proof.
  destruct pair as [symbol timeframe]. unfold scan_pair.
  apply uniform_bind; [apply uniform_get_crypto_data|].
  intros [d|]; [|apply uniform_ret].
  apply uniform_bind; [apply uniform_call|].
  intros signal. destruct (truthy_str signal); [|apply uniform_ret].
  apply uniform_bind; [apply uniform_call|]. intros _.
  intros chat. exists (send_message w chat (default "" signal) "MarkdownV2"), chat,
    [EvSend chat (default "" signal) "MarkdownV2"].
  intros tr. reflexivity.
Qed.

Lemma uniform_check_for_signals w : uniform (check_for_signals w).
Proof.
  intros chat. unfold check_for_signals.
  destruct (truthy_id chat) eqn:Hchat.
  - destruct (uniform_bind (log INFO "Scheduler running: Checking for new signals...")
                (fun _ => scan w PAIRS_TO_SCAN)
                (uniform_call _ _)
                (fun _ => uniform_for_each _ _ (uniform_scan_pair w)) chat)
      as (r & chat' & evs & H).
    exists r, chat', evs. intros tr.
    unfold bind at 1. unfold read_target. cbn. rewrite Hchat. cbn. apply H.
  - exists (Ok tt), chat, [warning_unset]. intros tr.
    unfold bind, read_target. cbn. rewrite Hchat. reflexivity.
Qed.

(** ** Failures inside the loop *)

(** A fetch that raises is caught in [get_crypto_data]: the pair is logged
    and skipped, and the loop goes on. *)
Lemma scan_fetch_failure w symbol timeframe rest e (s : State) :
  fetch_ohlcv w symbol timeframe 100 = Raise e ->
  scan w ((symbol, timeframe) :: rest) s
  = scan w rest
      (emit (EvLog ERROR ("Error fetching data for " +:+ symbol +:+ ": " +:+ e))
         (emit (EvFetch symbol timeframe 100) s)).
Proof.
  intros H. unfold scan. cbn [for_each]. unfold bind at 1.
  unfold scan_pair, get_crypto_data, try_except, bind, call, log, call, ret.
  rewrite H. reflexivity.
Qed.

(** An exception in the body of the loop ends the loop. *)
Lemma for_each_raise {A} (body : A -> M unit) x rest e (s s' : State) :
  body x s = (Raise e, s') -> for_each (x :: rest) body s = (Raise e, s').
Proof. intros H. cbn [for_each]. unfold bind. rewrite H. reflexivity. Qed.

(** An exception raised by [generate_signal] leaves [scan_pair]. *)
Lemma scan_pair_evaluation_failure w symbol timeframe bars e (s : State) :
  fetch_ohlcv w symbol timeframe 100 = Ok bars ->
  fst (generate_signal w (Some (mkDataFrame bars ∅)) symbol timeframe) = Raise e ->
  scan_pair w (symbol, timeframe) s
  = (Raise e, emit (EvEvaluate symbol timeframe) (emit (EvFetch symbol timeframe 100) s)).
Proof.
  intros Hf Hg.
  unfold scan_pair, get_crypto_data, try_except, bind, call, ret.
  rewrite Hf. cbv beta iota. rewrite Hg. reflexivity.
Qed.

(** C3. One run over the four configured pairs.  When the fetch of the
    first pair fails, the three other pairs are still fetched, evaluated and
    sent.  When [send_message] raises on the first pair, or when the
    evaluation of the first pair raises, the job itself raises, and the
    three other pairs are never fetched. *)
Theorem failure_on_one_pair :
  (let run := check_for_signals fetch_fails_world subscribed in
   fst run = Ok tt
   /\ filter is_fetch (trace (snd run))
      = [EvFetch "BTC/USDT" "15m" 100; EvFetch "ETH/USDT" "15m" 100;
         EvFetch "BTC/USDT" "1h" 100; EvFetch "SOL/USDT" "1h" 100]
   /\ filter is_evaluate (trace (snd run))
      = [EvEvaluate "ETH/USDT" "15m"; EvEvaluate "BTC/USDT" "1h";
         EvEvaluate "SOL/USDT" "1h"]
   /\ filter is_send (trace (snd run))
      = [sample_alert "ETH/USDT" "15m"; sample_alert "BTC/USDT" "1h";
         sample_alert "SOL/USDT" "1h"])
  /\ (let run := check_for_signals send_fails_world subscribed in
      fst run = Raise "BadRequest: can't parse entities"
      /\ filter is_fetch (trace (snd run)) = [EvFetch "BTC/USDT" "15m" 100]
      /\ filter is_evaluate (trace (snd run)) = [EvEvaluate "BTC/USDT" "15m"])
  /\ (let run := check_for_signals evaluation_fails_world subscribed in
      fst run = Raise "ValueError: cannot convert float NaN"
      /\ filter is_fetch (trace (snd run)) = [EvFetch "BTC/USDT" "15m" 100]
      /\ filter is_send (trace (snd run)) = []).
Proof.
  repeat split; vm_compute; reflexivity.
Qed.

(** ** Consecutive runs *)

Lemma second_run_repeats w chat tr :
  exists r evs,
    check_for_signals w (mkState chat tr) = (r, mkState chat (tr ++ evs))
    /\ check_for_signals w (mkState chat (tr ++ evs))
       = (r, mkState chat ((tr ++ evs) ++ evs)).
Proof.
  destruct (uniform_check_for_signals w chat) as (r & chat' & evs & H).
  assert (Hchat : chat' = chat).
  { pose proof (keeps_target_check_for_signals w (mkState chat [])) as Hk.
    rewrite H in Hk. exact Hk. }
  subst chat'. exists r, evs. split; apply H.
Qed.

(** C4, as the code has it.  Nothing is remembered between runs: when the
    world is the same at two consecutive runs, the second run returns what
    the first returned and adds the very events the first added, so every
    alert of the first run is pushed again. *)
Theorem alerts_repeat_every_run w (s : State) :
  let s1 := snd (check_for_signals w s) in
  fst (check_for_signals w s1) = fst (check_for_signals w s)
  /\ added (check_for_signals w) s1 = added (check_for_signals w) s
  /\ trace (snd (check_for_signals w s1))
     = trace s ++ added (check_for_signals w) s ++ added (check_for_signals w) s.
Proof.
  destruct s as [chat tr]. cbn zeta.
  destruct (second_run_repeats w chat tr) as (r & evs & H1 & H2).
  unfold added. rewrite H1. cbn [snd fst trace]. rewrite H2. cbn [snd fst trace].
  rewrite !drop_app_length, app_assoc. repeat split.
Qed.

Lemma alerts_not_deduplicated :
  (deduplicated (calm_world 100 30 95) subscribed -> False)
  /\ sample_alert "BTC/USDT" "15m"
       ∈ added (check_for_signals (calm_world 100 30 95)) subscribed
  /\ sample_alert "BTC/USDT" "15m"
       ∈ added (check_for_signals (calm_world 100 30 95))
           (snd (check_for_signals (calm_world 100 30 95) subscribed)).
Proof.
  assert (H1 : sample_alert "BTC/USDT" "15m"
               ∈ added (check_for_signals (calm_world 100 30 95)) subscribed).
  { vm_compute. do 4 apply list_elem_of_further. apply list_elem_of_here. }
  assert (H2 : sample_alert "BTC/USDT" "15m"
               ∈ added (check_for_signals (calm_world 100 30 95))
                   (snd (check_for_signals (calm_world 100 30 95) subscribed))).
  { vm_compute. do 4 apply list_elem_of_further. apply list_elem_of_here. }
  split; [|split; assumption].
  intros H. exact (H (sample_alert "BTC/USDT" "15m") eq_refl H1 H2).
Qed.

(** ** What is sent *)

Lemma adds_ret {A} (P : event -> Prop) (Q : A -> Prop) (a : A) :
  Q a -> adds P Q (ret a).
Proof.
  intros HQ s. exists []. cbn. rewrite app_nil_r.
  repeat split; [constructor|]. intros a' [= <-]. exact HQ.
Qed.

Lemma adds_call {A} (P : event -> Prop) (Q : A -> Prop) ev (r : result A) :
  P ev -> (forall a, r = Ok a -> Q a) -> adds P Q (call ev r).
Proof.
  intros HP HQ s. exists [ev]. cbn. repeat split; [|exact HQ].
  constructor; [exact HP|constructor].
Qed.

Lemma adds_read (P : event -> Prop) : adds P (fun _ => True) read_target.
Proof.
  intros s. exists []. cbn. rewrite app_nil_r. repeat split. constructor.
Qed.

Lemma adds_bind {A B} (P : event -> Prop) (Q : A -> Prop) (R : B -> Prop)
    (m : M A) (k : A -> M B) :
  adds P Q m -> (forall a, Q a -> adds P R (k a)) -> adds P R (bind m k).
Proof.
  intros Hm Hk s. destruct (Hm s) as (evs1 & Ht1 & HP1 & HQ1). unfold bind.
  destruct (m s) as [[a|e] s1]; cbn [fst snd] in *.
  - destruct (Hk a (HQ1 a eq_refl) s1) as (evs2 & Ht2 & HP2 & HR2).
    exists (evs1 ++ evs2). rewrite Ht2, Ht1, app_assoc.
    repeat split; [apply Forall_app; split; assumption|exact HR2].
  - exists evs1. repeat split; [assumption..|]. intros b [=].
Qed.

Lemma adds_try {A} (P : event -> Prop) (Q : A -> Prop)
    (body : M A) (handler : exn -> M A) :
  adds P Q body -> (forall e, adds P Q (handler e)) ->
  adds P Q (try_except body handler).
Proof.
  intros Hb Hh s. destruct (Hb s) as (evs1 & Ht1 & HP1 & HQ1). unfold try_except.
  destruct (body s) as [[a|e] s1]; cbn [fst snd] in *.
  - exists evs1. repeat split; assumption.
  - destruct (Hh e s1) as (evs2 & Ht2 & HP2 & HQ2).
    exists (evs1 ++ evs2). rewrite Ht2, Ht1, app_assoc.
    repeat split; [apply Forall_app; split; assumption|exact HQ2].
Qed.

Lemma adds_for_each {A} (P : event -> Prop) (xs : list A) (body : A -> M unit) :
  (forall x, adds P (fun _ => True) (body x)) ->
  adds P (fun _ => True) (for_each xs body).
Proof.
  intros Hb. induction xs as [|x xs IH]; cbn [for_each].
  - apply adds_ret. exact I.
  - eapply adds_bind; [apply Hb|intros _ _; apply IH].
Qed.

(** A message of [generate_signal] is the alert template, filled from one
    close. *)
Lemma generate_signal_message w df symbol timeframe msg :
  fst (generate_signal w df symbol timeframe) = Ok (Some msg) ->
  exists c, msg = signal_message symbol timeframe c (c * 1.03)%float (c * 0.985)%float.
Proof.
  unfold generate_signal. destruct df as [d|]; [|discriminate].
  destruct (len d <? 50)%nat; [discriminate|].
  destruct (ta_rsi w 14 (closes d)) as [rsi_col|e]; [|discriminate].
  destruct (ta_ema w 50 (closes (df_append "RSI_14" rsi_col d)))
    as [ema_col|e]; [|discriminate].
  set (d2 := df_append "EMA_50" ema_col (df_append "RSI_14" rsi_col d)).
  destruct (iloc_last d2 "RSI_14") as [rsi_14|e];
    destruct (iloc_last d2 "EMA_50") as [ema_50|e']; cbn [fst]; try discriminate.
  intros [= H]. apply strategy_Some in H. destruct H as (_ & _ & ->).
  eexists. reflexivity.
Qed.

Lemma truthy_str_Some (o : option string) :
  truthy_str o = true -> o = Some (default "" o).
Proof. destruct o as [[|c rest]|]; cbn; intros H; congruence. Qed.

Lemma adds_scan_pair w pair : adds alert_event (fun _ => True) (scan_pair w pair).
Proof.
  destruct pair as [symbol timeframe]. unfold scan_pair.
  eapply adds_bind with (Q := fun _ => True).
  { apply adds_try.
    - eapply adds_bind with (Q := fun _ => True);
        [apply adds_call; [exact I|auto]|].
      intros bars _. apply adds_ret. exact I.
    - intros e. eapply adds_bind with (Q := fun _ => True);
        [apply adds_call; [exact I|auto]|].
      intros _ _. apply adds_ret. exact I. }
  intros [d|] _; [|apply adds_ret; exact I].
  eapply adds_bind
    with (Q := fun signal =>
                 fst (generate_signal w (Some d) symbol timeframe) = Ok signal).
  { apply adds_call; [exact I|auto]. }
  intros signal Hsignal.
  destruct (truthy_str signal) eqn:Htruthy; [|apply adds_ret; exact I].
  eapply adds_bind with (Q := fun _ => True); [apply adds_call; [exact I|auto]|].
  intros _ _. eapply adds_bind; [apply adds_read|].
  intros chat_id _. apply adds_call; [|auto].
  split; [reflexivity|].
  rewrite (truthy_str_Some _ Htruthy) in Hsignal.
  destruct (generate_signal_message _ _ _ _ _ Hsignal) as [c Hc].
  exists symbol, timeframe, c. exact Hc.
Qed.

Lemma adds_check_for_signals w :
  adds alert_event (fun _ => True) (check_for_signals w).
Proof.
  unfold check_for_signals. eapply adds_bind; [apply adds_read|].
  intros chat _. destruct (negb (truthy_id chat)).
  - apply adds_call; [exact I|auto].
  - eapply adds_bind with (Q := fun _ => True); [apply adds_call; [exact I|auto]|].
    intros _ _. apply adds_for_each. intros pair. apply adds_scan_pair.
Qed.

Lemma append_assoc (a b c : string) : (a +:+ b) +:+ c = a +:+ (b +:+ c).
Proof.
  induction a as [|x a IH]; [reflexivity|].
  change (String x ((a +:+ b) +:+ c) = String x (a +:+ (b +:+ c))).
  f_equal. exact IH.
Qed.

(** A parenthesis that follows a space is not escaped. *)
Lemma escaped_from_bare_paren (pre post : string) (b : bool) :
  escaped_from b (pre +:+ " (" +:+ post) = false.
Proof.
  revert b. induction pre as [|c pre IH]; intros b.
  - destruct b; reflexivity.
  - change (String c pre +:+ " (" +:+ post)
      with (String c (pre +:+ " (" +:+ post)).
    cbn [escaped_from].
    destruct b; [apply IH|].
    destruct (Ascii.eqb c "\"%char); [apply IH|].
    destruct (is_reserved c); [reflexivity|apply IH].
Qed.

Lemma signal_message_paren symbol timeframe (entry_price tp sl : float) :
  exists pre post,
    signal_message symbol timeframe entry_price tp sl = pre +:+ " (BUY)" +:+ post.
Proof.
  exists (siren +:+ " **New AI Signal** " +:+ siren +:+ nl +:+ nl
          +:+ "**Pair:** " +:+ symbol +:+ nl
          +:+ "**Timeframe:** " +:+ timeframe +:+ nl +:+ "**Signal:** LONG").
  eexists. unfold signal_message.
  rewrite !append_assoc. repeat f_equal.
Qed.

(** Each price is printed with four digits after the point. *)
Lemma format_4f_four_decimals (x : float) s m e :
  Prim2SF x = S754_finite s m e ->
  exists whole frac,
    Fmt.format_4f x = Fmt.sign_str s +:+ whole +:+ "." +:+ frac
    /\ String.length frac = 4%nat.
Proof.
  intros H. unfold Fmt.format_4f. rewrite H. unfold Fmt.fixed4.
  eexists. eexists. split; [reflexivity|]. reflexivity.
Qed.

(** C7, on the code.  Whatever the world, every message the job sends is
    the alert template, sent as MarkdownV2 and exactly as [generate_signal]
    built it: it holds [ (BUY)] with its parentheses bare, so it is not
    escaped. *)
Theorem sent_text_not_escaped w (s : State) chat_id text parse_mode :
  EvSend chat_id text parse_mode ∈ added (check_for_signals w) s ->
  parse_mode = "MarkdownV2"
  /\ (exists symbol timeframe c,
       text = signal_message symbol timeframe c (c * 1.03)%float (c * 0.985)%float)
  /\ (exists pre post, text = pre +:+ " (BUY)" +:+ post)
  /\ markdown_escaped text = false.
Proof.
  intros Hin. unfold added in Hin.
  destruct (adds_check_for_signals w s) as (evs & Ht & HP & _).
  rewrite Ht, drop_app_length in Hin.
  rewrite Forall_forall in HP. specialize (HP _ Hin).
  destruct HP as (Hmode & symbol & timeframe & c & ->).
  split; [exact Hmode|]. split; [eauto|].
  destruct (signal_message_paren symbol timeframe c (c * 1.03)%float (c * 0.985)%float)
    as (pre & post & Hmsg).
  split; [eauto|].
  rewrite Hmsg. unfold markdown_escaped.
  change (pre +:+ " (BUY)" +:+ post) with (pre +:+ " (" +:+ ("BUY)" +:+ post)).
  apply escaped_from_bare_paren.
Qed.

Lemma sent_text_not_escaped_witness :
  markdown_escaped (signal_message "BTC/USDT" "15m" 100 103 98.5) = false.
Proof.
  assert (Hin : sample_alert "BTC/USDT" "15m"
                ∈ added (check_for_signals (calm_world 100 30 95)) subscribed).
  { vm_compute. do 4 apply list_elem_of_further. apply list_elem_of_here. }
  exact (proj2 (proj2 (proj2 (sent_text_not_escaped _ _ _ _ _ Hin)))).
Defined.

(** ** Calling the evaluator twice *)

Lemma df_append_twice name col name' col' (d : DataFrame) :
  name <> name' ->
  df_append name col (df_append name' col' (df_append name col d))
  = df_append name' col' (df_append name col d).
Proof.
  intros Hne. unfold df_append. cbn [candles appended]. f_equal.
  rewrite (insert_insert_ne _ name name') by exact Hne.
  rewrite insert_insert_eq. reflexivity.
Qed.

Lemma df_append_same name col (d : DataFrame) :
  df_append name col (df_append name col d) = df_append name col d.
Proof.
  unfold df_append. cbn [candles appended]. f_equal. apply insert_insert_eq.
Qed.

(** The result of [generate_signal] is a function of the candles: columns
    appended before the call do not count. *)
Lemma generate_signal_reads_candles w (d d' : DataFrame) symbol timeframe :
  candles d = candles d' ->
  fst (generate_signal w (Some d) symbol timeframe)
  = fst (generate_signal w (Some d') symbol timeframe).
Proof.
  intros Hc.
  assert (Hlen : len d = len d') by (unfold len; rewrite Hc; reflexivity).
  assert (Hcl : closes d = closes d') by (unfold closes; rewrite Hc; reflexivity).
  destruct (Nat.lt_ge_cases (len d) 50) as [Hlt|Hge].
  - rewrite !generate_signal_short by lia. reflexivity.
  - destruct (ta_rsi w 14 (closes d)) as [rsi_col|e] eqn:Hrsi.
    + destruct (ta_ema w 50 (closes d)) as [ema_col|e] eqn:Hema.
      * rewrite (generate_signal_runs w d _ _ rsi_col ema_col) by assumption.
        rewrite (generate_signal_runs w d' _ _ rsi_col ema_col)
          by (rewrite <- ?Hcl; lia || assumption).
        unfold last_close, at_last. rewrite Hlen, Hcl. reflexivity.
      * unfold generate_signal.
        destruct (Nat.ltb_spec (len d) 50), (Nat.ltb_spec (len d') 50); try lia.
        rewrite <- Hcl, Hrsi.
        change (closes (df_append "RSI_14" rsi_col d)) with (closes d).
        change (closes (df_append "RSI_14" rsi_col d')) with (closes d').
        rewrite <- Hcl, Hema. reflexivity.
    + unfold generate_signal.
      destruct (Nat.ltb_spec (len d) 50), (Nat.ltb_spec (len d') 50); try lia.
      rewrite <- Hcl, Hrsi. reflexivity.
Qed.

(** C8. [generate_signal] takes the world, the frame and the two names, and
    nothing of the process state.  Its only effect is on the frame it is
    given, and a second call on the frame the first call leaves returns the
    same result and leaves the same frame; the result depends on the candles
    alone. *)
Theorem generate_signal_deterministic w df symbol timeframe :
  let first := generate_signal w df symbol timeframe in
  generate_signal w (snd first) symbol timeframe = first
  /\ (forall d d', df = Some d -> candles d' = candles d ->
       fst (generate_signal w (Some d') symbol timeframe) = fst first).
Proof.
  cbn zeta. split.
  - destruct df as [d|]; [|reflexivity].
    destruct (Nat.lt_ge_cases (len d) 50) as [Hlt|Hge].
    { rewrite !generate_signal_short by lia. cbn [snd].
      apply generate_signal_short. lia. }
    destruct (ta_rsi w 14 (closes d)) as [rsi_col|e] eqn:Hrsi.
    + destruct (ta_ema w 50 (closes d)) as [ema_col|e] eqn:Hema.
      * rewrite (generate_signal_runs w d _ _ rsi_col ema_col) by assumption.
        cbn [snd].
        rewrite (generate_signal_runs w _ _ _ rsi_col ema_col) by assumption.
        rewrite !df_append_twice by discriminate. reflexivity.
      * unfold generate_signal at 2. unfold generate_signal at 2.
        destruct (Nat.ltb_spec (len d) 50); [lia|].
        rewrite Hrsi.
        change (closes (df_append "RSI_14" rsi_col d)) with (closes d).
        rewrite Hema. cbn [snd]. unfold generate_signal.
        change (len (df_append "RSI_14" rsi_col d)) with (len d).
        destruct (Nat.ltb_spec (len d) 50); [lia|].
        change (closes (df_append "RSI_14" rsi_col d)) with (closes d).
        rewrite Hrsi. rewrite df_append_same.
        change (closes (df_append "RSI_14" rsi_col d)) with (closes d).
        rewrite Hema. reflexivity.
    + unfold generate_signal.
      destruct (Nat.ltb_spec (len d) 50); [lia|].
      rewrite Hrsi. cbn [snd].
      destruct (Nat.ltb_spec (len d) 50); [lia|].
      rewrite Hrsi. reflexivity.
  - intros d d' -> Hc. apply generate_signal_reads_candles. exact Hc.
Qed.

(** * Further properties of the code *)

(** ** The handlers compute their outcome *)

Lemma scan_pair_runs w chat pair tr :
  scan_pair w pair (mkState chat tr)
  = (fst (pair_outcome w chat pair),
     mkState chat (tr ++ snd (pair_outcome w chat pair))).
Proof.
  destruct pair as [symbol timeframe].
  unfold scan_pair, pair_outcome, get_crypto_data, try_except, bind, log, call,
    ret, read_target, emit.
  destruct (fetch_ohlcv w symbol timeframe 100) as [bars|e];
    cbn [fst snd TARGET_CHAT_ID trace].
  - destruct (fst (generate_signal w (Some (mkDataFrame bars ∅)) symbol timeframe))
      as [signal|e]; cbn [fst snd TARGET_CHAT_ID trace].
    + destruct (truthy_str signal); cbn [fst snd TARGET_CHAT_ID trace];
        rewrite <- ?app_assoc; reflexivity.
    + rewrite <- ?app_assoc. reflexivity.
  - rewrite <- ?app_assoc. reflexivity.
Qed.

Lemma scan_runs w chat pairs tr :
  scan w pairs (mkState chat tr)
  = (fst (scan_outcome w chat pairs),
     mkState chat (tr ++ snd (scan_outcome w chat pairs))).
Proof.
  revert tr. induction pairs as [|p rest IH]; intros tr.
  - cbn. rewrite app_nil_r. reflexivity.
  - unfold scan in *. cbn [for_each scan_outcome]. unfold bind at 1.
    rewrite scan_pair_runs.
    destruct (pair_outcome w chat p) as [[[]|e] evs]; cbn [fst snd].
    + rewrite IH, app_assoc. reflexivity.
    + reflexivity.
Qed.

Lemma check_for_signals_runs w chat tr :
  check_for_signals w (mkState chat tr)
  = (fst (job_outcome w chat), mkState chat (tr ++ snd (job_outcome w chat))).
Proof.
  unfold check_for_signals, job_outcome, bind at 1, read_target.
  cbn [fst snd TARGET_CHAT_ID]. destruct (truthy_id chat); cbn [negb].
  - unfold bind, log, call, emit. cbn [fst snd TARGET_CHAT_ID trace].
    rewrite scan_runs. cbn [fst snd]. rewrite <- app_assoc. reflexivity.
  - reflexivity.
Qed.

Lemma added_check_for_signals w (s : State) :
  added (check_for_signals w) s = snd (job_outcome w (TARGET_CHAT_ID s)).
Proof.
  destruct s as [chat tr]. unfold added.
  rewrite check_for_signals_runs. cbn [snd trace TARGET_CHAT_ID].
  apply drop_app_length.
Qed.

(** ** [get_crypto_data] *)


(** ** One run with a subscriber *)

Lemma pair_outcome_fetch w chat p :
  filter is_fetch (snd (pair_outcome w chat p)) = [fetch_event p].
Proof.
  destruct p as [symbol timeframe]. unfold pair_outcome, fetch_event.
  destruct (fetch_ohlcv w symbol timeframe 100) as [bars|e]; [|reflexivity].
  destruct (fst (generate_signal w _ symbol timeframe)) as [signal|e];
    [|reflexivity].
  destruct (truthy_str signal); reflexivity.
Qed.

Lemma scan_outcome_fetches w chat pairs :
  filter is_fetch (snd (scan_outcome w chat pairs)) `prefix_of` (fetch_event <$> pairs)
  /\ (fst (scan_outcome w chat pairs) = Ok tt ->
      filter is_fetch (snd (scan_outcome w chat pairs)) = fetch_event <$> pairs).
Proof.
  induction pairs as [|p rest [IHp IHe]]; cbn [scan_outcome fmap list_fmap].
  - split; [apply prefix_nil|reflexivity].
  - pose proof (pair_outcome_fetch w chat p) as Hp.
    destruct (pair_outcome w chat p) as [[[]|e] evs]; cbn [fst snd] in *.
    + rewrite filter_app, Hp. split.
      * apply (prefix_app [fetch_event p]), IHp.
      * intros H. rewrite (IHe H). reflexivity.
    + rewrite Hp. split; [|discriminate].
      exists (fetch_event <$> rest). reflexivity.
Qed.

(** X2. A run with a subscriber fetches the configured pairs in their
    order, each at most once, and stops fetching only when the run raises:
    the fetches of a run are a prefix of the configured list, and the whole
    list when the run returns. *)
Theorem run_fetches_in_order w (s : State) :
  truthy_id (TARGET_CHAT_ID s) = true ->
  filter is_fetch (added (check_for_signals w) s)
    `prefix_of` (fetch_event <$> PAIRS_TO_SCAN)
  /\ (fst (check_for_signals w s) = Ok tt ->
      filter is_fetch (added (check_for_signals w) s) = fetch_event <$> PAIRS_TO_SCAN).
Proof.
  intros Htruthy. rewrite added_check_for_signals.
  destruct s as [chat tr]. rewrite check_for_signals_runs.
  cbn [fst TARGET_CHAT_ID] in *. unfold job_outcome. rewrite Htruthy.
  cbn [fst snd].
  change (filter is_fetch (?e :: ?l)) with (filter is_fetch l).
  apply scan_outcome_fetches.
Qed.

Lemma run_fetches_in_order_witness :
  filter is_fetch (added (check_for_signals (calm_world 100 30 95)) subscribed)
  = fetch_event <$> PAIRS_TO_SCAN.
Proof.
  apply (run_fetches_in_order (calm_world 100 30 95) subscribed); reflexivity.
Defined.

Lemma pair_outcome_send w chat p chat_id text parse_mode :
  EvSend chat_id text parse_mode ∈ snd (pair_outcome w chat p) -> chat_id = chat.
Proof.
  destruct p as [symbol timeframe]. unfold pair_outcome.
  destruct (fetch_ohlcv w symbol timeframe 100) as [bars|e].
  - destruct (fst (generate_signal w _ symbol timeframe)) as [signal|e].
    + destruct (truthy_str signal); cbn [snd]; rewrite ?elem_of_cons, ?elem_of_nil;
        intros H; decompose [or] H; try discriminate; try contradiction.
      congruence.
    + cbn [snd]. rewrite ?elem_of_cons, ?elem_of_nil.
      intros H; decompose [or] H; try discriminate; contradiction.
  - cbn [snd]. rewrite ?elem_of_cons, ?elem_of_nil.
    intros H; decompose [or] H; try discriminate; contradiction.
Qed.

Lemma scan_outcome_send w chat pairs chat_id text parse_mode :
  EvSend chat_id text parse_mode ∈ snd (scan_outcome w chat pairs) -> chat_id = chat.
Proof.
  induction pairs as [|p rest IH]; cbn [scan_outcome].
  - cbn. rewrite elem_of_nil. contradiction.
  - pose proof (pair_outcome_send w chat p chat_id text parse_mode) as Hp.
    destruct (pair_outcome w chat p) as [[[]|e] evs]; cbn [fst snd] in *.
    + rewrite elem_of_app. intros [H|H]; auto.
    + exact Hp.
Qed.

(** X3. Whatever the world, every [send_message] call of a run is addressed
    to the chat held in [TARGET_CHAT_ID] when the run starts, and that chat
    id is not 0. *)
Theorem alerts_go_to_the_subscriber w (s : State) chat_id text parse_mode :
  EvSend chat_id text parse_mode ∈ added (check_for_signals w) s ->
  chat_id = TARGET_CHAT_ID s /\ exists id, chat_id = Some id /\ id <> 0.
Proof.
  rewrite added_check_for_signals. unfold job_outcome.
  destruct (truthy_id (TARGET_CHAT_ID s)) eqn:Htruthy; cbn [snd].
  - rewrite elem_of_cons. intros [H|H]; [discriminate|].
    apply scan_outcome_send in H. subst chat_id. split; [reflexivity|].
    destruct (TARGET_CHAT_ID s) as [id|]; [|discriminate].
    exists id. split; [reflexivity|]. cbn in Htruthy.
    destruct (Z.eqb_spec id 0); [discriminate|assumption].
  - rewrite list_elem_of_singleton. discriminate.
Qed.

Lemma alerts_go_to_the_subscriber_witness :
  exists id, Some 42 = Some id /\ id <> 0.
Proof.
  assert (Hin : sample_alert "BTC/USDT" "15m"
                ∈ added (check_for_signals (calm_world 100 30 95)) subscribed).
  { vm_compute. do 4 apply list_elem_of_further. apply list_elem_of_here. }
  exact (proj2 (alerts_go_to_the_subscriber _ _ _ _ _ Hin)).
Defined.

Lemma pair_outcome_counts w chat p :
  (length (filter is_send (snd (pair_outcome w chat p)))
   <= length (filter is_evaluate (snd (pair_outcome w chat p))))%nat
  /\ (length (filter is_evaluate (snd (pair_outcome w chat p))) <= 1)%nat.
Proof.
  destruct p as [symbol timeframe]. unfold pair_outcome.
  destruct (fetch_ohlcv w symbol timeframe 100) as [bars|e];
    [|split; [apply Nat.le_refl|apply Nat.le_0_l]].
  destruct (fst (generate_signal w _ symbol timeframe)) as [signal|e];
    [|split; [apply Nat.le_0_l|apply Nat.le_refl]].
  destruct (truthy_str signal); split;
    first [apply Nat.le_refl|apply Nat.le_0_l].
Qed.

Lemma scan_outcome_counts w chat pairs :
  (length (filter is_send (snd (scan_outcome w chat pairs)))
   <= length (filter is_evaluate (snd (scan_outcome w chat pairs))))%nat
  /\ (length (filter is_evaluate (snd (scan_outcome w chat pairs)))
      <= length (filter is_fetch (snd (scan_outcome w chat pairs))))%nat
  /\ (length (filter is_fetch (snd (scan_outcome w chat pairs))) <= length pairs)%nat.
Proof.
  induction pairs as [|p rest IH]; cbn [scan_outcome].
  - cbn. lia.
  - pose proof (pair_outcome_counts w chat p) as Hc.
    pose proof (pair_outcome_fetch w chat p) as Hf.
    destruct (pair_outcome w chat p) as [[[]|e] evs]; cbn [fst snd length] in *.
    + rewrite !filter_app, !length_app, Hf. cbn [length]. lia.
    + rewrite Hf. cbn [length]. lia.
Qed.

(** X4. In one run there are at most as many sends as evaluations, at most
    as many evaluations as fetches, and at most one fetch for each
    configured pair: a run never sends more than four alerts. *)
Theorem run_sends_at_most_one_alert_per_pair w (s : State) :
  let evs := added (check_for_signals w) s in
  (length (filter is_send evs) <= length (filter is_evaluate evs))%nat
  /\ (length (filter is_evaluate evs) <= length (filter is_fetch evs))%nat
  /\ (length (filter is_fetch evs) <= length PAIRS_TO_SCAN)%nat
  /\ (length (filter is_send evs) <= 4)%nat.
Proof.
  cbn zeta. rewrite added_check_for_signals. unfold job_outcome.
  destruct (truthy_id (TARGET_CHAT_ID s)); cbn [snd].
  - change (filter is_send (?e :: ?l)) with (filter is_send l).
    change (filter is_evaluate (?e :: ?l)) with (filter is_evaluate l).
    change (filter is_fetch (?e :: ?l)) with (filter is_fetch l).
    pose proof (scan_outcome_counts w (TARGET_CHAT_ID s) PAIRS_TO_SCAN) as H.
    change (length PAIRS_TO_SCAN) with 4%nat in *. lia.
  - vm_compute. lia.
Qed.

Lemma pair_outcome_raise w chat symbol timeframe e :
  fst (pair_outcome w chat (symbol, timeframe)) = Raise e ->
  exists bars,
    fetch_ohlcv w symbol timeframe 100 = Ok bars
    /\ (fst (generate_signal w (Some (mkDataFrame bars ∅)) symbol timeframe) = Raise e
        \/ exists msg,
             fst (generate_signal w (Some (mkDataFrame bars ∅)) symbol timeframe)
             = Ok (Some msg)
             /\ send_message w chat msg "MarkdownV2" = Raise e).
Proof.
  unfold pair_outcome.
  destruct (fetch_ohlcv w symbol timeframe 100) as [bars|e']; [|discriminate].
  intros H. exists bars. split; [reflexivity|].
  destruct (fst (generate_signal w _ symbol timeframe)) as [signal|e'].
  - destruct (truthy_str signal) eqn:Htruthy; [|discriminate].
    right. exists (default "" signal). cbn [fst] in H.
    split; [|exact H]. f_equal. apply truthy_str_Some, Htruthy.
  - left. cbn [fst] in H. injection H as ->. reflexivity.
Qed.

(** X5. The job raises only what the evaluation or the send of one of the
    configured pairs raised: an exception of the exchange never leaves the
    job, and a run in which every evaluation and every send returns,
    returns. *)
Theorem run_raises_only_from_evaluation_or_send w (s : State) e :
  fst (check_for_signals w s) = Raise e ->
  exists symbol timeframe bars,
    (symbol, timeframe) ∈ PAIRS_TO_SCAN
    /\ fetch_ohlcv w symbol timeframe 100 = Ok bars
    /\ (fst (generate_signal w (Some (mkDataFrame bars ∅)) symbol timeframe) = Raise e
        \/ exists msg,
             fst (generate_signal w (Some (mkDataFrame bars ∅)) symbol timeframe)
             = Ok (Some msg)
             /\ send_message w (TARGET_CHAT_ID s) msg "MarkdownV2" = Raise e).
Proof.
  destruct s as [chat tr]. rewrite check_for_signals_runs.
  cbn [fst TARGET_CHAT_ID]. unfold job_outcome.
  destruct (truthy_id chat); [|discriminate]. cbn [fst].
  generalize PAIRS_TO_SCAN as pairs.
  induction pairs as [|[symbol timeframe] rest IH]; cbn [scan_outcome];
    [discriminate|].
  pose proof (pair_outcome_raise w chat symbol timeframe) as Hp.
  destruct (pair_outcome w chat (symbol, timeframe)) as [[[]|e'] evs];
    cbn [fst] in *.
  - intros H. destruct (IH H) as (sy & tf & bars & Hin & Hrest).
    exists sy, tf, bars. split; [|exact Hrest].
    apply list_elem_of_further, Hin.
  - intros [= ->]. destruct (Hp e eq_refl) as (bars & Hrest).
    exists symbol, timeframe, bars. split; [apply list_elem_of_here|exact Hrest].
Qed.

Lemma run_raises_only_from_evaluation_or_send_witness :
  exists symbol timeframe bars,
    (symbol, timeframe) ∈ PAIRS_TO_SCAN
    /\ fetch_ohlcv send_fails_world symbol timeframe 100 = Ok bars
    /\ (fst (generate_signal send_fails_world (Some (mkDataFrame bars ∅))
               symbol timeframe)
        = Raise "BadRequest: can't parse entities"
        \/ exists msg,
             fst (generate_signal send_fails_world (Some (mkDataFrame bars ∅))
                    symbol timeframe) = Ok (Some msg)
             /\ send_message send_fails_world (Some 42) msg "MarkdownV2"
                = Raise "BadRequest: can't parse entities").
Proof.
  apply (run_raises_only_from_evaluation_or_send send_fails_world subscribed).
  vm_compute. reflexivity.
Defined.

Lemma signal_message_truthy symbol timeframe (entry_price tp sl : float) :
  truthy_str (Some (signal_message symbol timeframe entry_price tp sl)) = true.
Proof. reflexivity. Qed.

(** X6. For one pair, the loop body calls [send_message] exactly when the
    fetch returned and [generate_signal] returned a message, once, with that
    very message, as MarkdownV2, to the chat of the global: no message is
    dropped for being empty, and nothing is sent otherwise. *)
Theorem signal_is_sent_once w (s : State) symbol timeframe :
  filter is_send (added (scan_pair w (symbol, timeframe)) s)
  = match fetch_ohlcv w symbol timeframe 100 with
    | Ok bars =>
      match fst (generate_signal w (Some (mkDataFrame bars ∅)) symbol timeframe) with
      | Ok (Some msg) => [EvSend (TARGET_CHAT_ID s) msg "MarkdownV2"]
      | _ => []
      end
    | Raise _ => []
    end.
Proof.
  destruct s as [chat tr]. unfold added. rewrite scan_pair_runs.
  cbn [snd trace TARGET_CHAT_ID]. rewrite drop_app_length. unfold pair_outcome.
  destruct (fetch_ohlcv w symbol timeframe 100) as [bars|e]; [|reflexivity].
  destruct (fst (generate_signal w _ symbol timeframe)) as [[msg|]|e] eqn:Hg;
    [|reflexivity..].
  destruct (generate_signal_message _ _ _ _ _ Hg) as [c ->].
  rewrite signal_message_truthy. reflexivity.
Qed.

(** ** When [generate_signal] signals *)

Lemma ltb_true_not_nan (x y : float) :
  (x <? y)%float = true -> is_nan x = false /\ is_nan y = false.
Proof.
  intros H. split.
  - destruct (is_nan x) eqn:E; [|reflexivity].
    rewrite (ltb_nan_l x y E) in H. discriminate.
  - destruct (is_nan y) eqn:E; [|reflexivity].
    rewrite (ltb_nan_r x y E) in H. discriminate.
Qed.

(** X8. A message of [generate_signal] is only ever built from a frame of at
    least 50 candles on which both indicator calls returned, with a last
    close, an RSI_14 and an EMA_50 that are all defined (none is NaN), the
    RSI below 35 and the close above the EMA. *)
Theorem signal_needs_defined_values w d symbol timeframe msg :
  fst (generate_signal w (Some d) symbol timeframe) = Ok (Some msg) ->
  (50 <= len d)%nat
  /\ exists rsi_col ema_col,
      ta_rsi w 14 (closes d) = Ok rsi_col
      /\ ta_ema w 50 (closes d) = Ok ema_col
      /\ is_nan (at_last d rsi_col) = false
      /\ is_nan (at_last d ema_col) = false
      /\ is_nan (last_close d) = false
      /\ (at_last d rsi_col <? 35)%float = true
      /\ (at_last d ema_col <? last_close d)%float = true.
Proof.
  intros H.
  destruct (Nat.lt_ge_cases (len d) 50) as [Hlt|Hge].
  { rewrite generate_signal_short in H by assumption. discriminate. }
  split; [exact Hge|].
  destruct (ta_rsi w 14 (closes d)) as [rsi_col|e] eqn:Hrsi.
  - destruct (ta_ema w 50 (closes d)) as [ema_col|e] eqn:Hema.
    + rewrite (generate_signal_runs w d _ _ rsi_col ema_col) in H by assumption.
      cbn [fst] in H. injection H as H.
      apply strategy_Some in H. destruct H as (H1 & H2 & _).
      exists rsi_col, ema_col.
      destruct (ltb_true_not_nan _ _ H1) as [Hn1 _].
      destruct (ltb_true_not_nan _ _ H2) as [Hn2 Hn3].
      repeat split; assumption.
    + exfalso. unfold generate_signal in H.
      destruct (Nat.ltb_spec (len d) 50); [lia|]. rewrite Hrsi in H.
      change (closes (df_append "RSI_14" rsi_col d)) with (closes d) in H.
      rewrite Hema in H. discriminate.
  - exfalso. unfold generate_signal in H.
    destruct (Nat.ltb_spec (len d) 50); [lia|]. rewrite Hrsi in H.
    discriminate.
Qed.

Lemma signal_needs_defined_values_witness :
  (50 <= len (flat_frame 50 100))%nat
  /\ exists rsi_col ema_col,
      ta_rsi (calm_world 100 30 95) 14 (closes (flat_frame 50 100)) = Ok rsi_col
      /\ ta_ema (calm_world 100 30 95) 50 (closes (flat_frame 50 100)) = Ok ema_col
      /\ is_nan (at_last (flat_frame 50 100) rsi_col) = false
      /\ is_nan (at_last (flat_frame 50 100) ema_col) = false
      /\ is_nan (last_close (flat_frame 50 100)) = false
      /\ (at_last (flat_frame 50 100) rsi_col <? 35)%float = true
      /\ (at_last (flat_frame 50 100) ema_col <? last_close (flat_frame 50 100))%float
         = true.
Proof.
  apply (signal_needs_defined_values (calm_world 100 30 95) (flat_frame 50 100)
           "BTC/USDT" "15m" (signal_message "BTC/USDT" "15m" 100 103 98.5)).
  vm_compute. reflexivity.
Defined.

(** ** The slot over the life of the process *)

Lemma start_keeps_a_set_slot w any id tr :
  exists evs,
    snd (start w any (mkState (Some id) tr)) = mkState (Some id) (tr ++ evs)
    /\ filter is_send evs = [].
Proof.
  unfold start, bind, read_target, call, emit. cbn [fst snd TARGET_CHAT_ID trace].
  destruct (id =? any); eexists; split; reflexivity.
Qed.

Lemma start_sets_an_empty_slot w id tr :
  exists evs,
    snd (start w id (mkState None tr)) = mkState (Some id) (tr ++ evs)
    /\ filter is_send evs = [].
Proof.
  unfold start, bind, read_target, write_target, log, call, emit.
  cbn [fst snd TARGET_CHAT_ID trace]. rewrite <- app_assoc.
  eexists. split; reflexivity.
Qed.

Lemma handle_keeps_a_set_slot w u id tr :
  exists evs, snd (handle w u (mkState (Some id) tr)) = mkState (Some id) (tr ++ evs).
Proof.
  destruct u as [any|]; cbn [handle].
  - destruct (start_keeps_a_set_slot w any id tr) as (evs & H & _). eauto.
  - rewrite check_for_signals_runs. cbn [snd]. eauto.
Qed.

Lemma process_keeps_a_set_slot steps id tr :
  exists evs, process steps (mkState (Some id) tr) = mkState (Some id) (tr ++ evs).
Proof.
  revert tr. induction steps as [|[w u] rest IH]; intros tr; cbn [process].
  - exists []. rewrite app_nil_r. reflexivity.
  - destruct (handle_keeps_a_set_slot w u id tr) as (evs1 & ->).
    destruct (IH (tr ++ evs1)) as (evs2 & ->).
    exists (evs1 ++ evs2). rewrite app_assoc. reflexivity.
Qed.

(** X9. The first chat that sends /start holds the slot for the life of the
    process: it is stored before the reply is attempted, so also when the
    reply raises, and no later /start, from any chat, and no run of the
    job, in any world, changes it.  The trace is only ever extended. *)
Theorem first_start_holds_the_slot w id tr steps :
  let s1 := snd (start w id (mkState None tr)) in
  TARGET_CHAT_ID s1 = Some id
  /\ TARGET_CHAT_ID (process steps s1) = Some id
  /\ trace s1 `prefix_of` trace (process steps s1)
  /\ tr `prefix_of` trace s1.
Proof.
  cbn zeta. destruct (start_sets_an_empty_slot w id tr) as (evs1 & -> & _).
  destruct (process_keeps_a_set_slot steps id (tr ++ evs1)) as (evs & ->).
  cbn [TARGET_CHAT_ID trace]. repeat split.
  - eexists. reflexivity.
  - eexists. reflexivity.
Qed.

Lemma process_zero_sends_nothing steps tr :
  exists evs,
    process steps (mkState (Some 0) tr) = mkState (Some 0) (tr ++ evs)
    /\ filter is_send evs = [].
Proof.
  revert tr. induction steps as [|[w u] rest IH]; intros tr; cbn [process].
  - exists []. rewrite app_nil_r. split; reflexivity.
  - assert (Hstep : exists evs1,
               snd (handle w u (mkState (Some 0) tr)) = mkState (Some 0) (tr ++ evs1)
               /\ filter is_send evs1 = []).
    { destruct u as [any|]; cbn [handle].
      - apply start_keeps_a_set_slot.
      - rewrite check_for_signals_runs. cbn [snd]. eexists. split; reflexivity. }
    destruct Hstep as (evs1 & -> & H1).
    destruct (IH (tr ++ evs1)) as (evs2 & -> & H2).
    exists (evs1 ++ evs2). rewrite app_assoc, filter_app, H1, H2.
    split; reflexivity.
Qed.

(** X10. The two tests of the global disagree on chat id 0: [start] stores
    it ([is None]) while the job takes it for no subscriber ([not]).  Once
    chat 0 has sent /start, every other chat is refused, every run only logs
    the warning, and no alert is sent for the rest of the process. *)
Theorem chat_id_zero_gets_no_alerts w tr steps :
  let s1 := snd (start w 0 (mkState None tr)) in
  TARGET_CHAT_ID s1 = Some 0
  /\ (forall w', check_for_signals w' s1 = (Ok tt, emit warning_unset s1))
  /\ (forall w' other, other <> 0 ->
       snd (start w' other s1)
       = emit (EvReply other "I'm already configured to send signals to another user.") s1)
  /\ filter is_send (drop (length (trace s1)) (trace (process steps s1))) = [].
Proof.
  cbn zeta. destruct (start_sets_an_empty_slot w 0 tr) as (evs1 & -> & _).
  split; [reflexivity|]. split; [|split].
  - intros w'. apply check_for_signals_unset. reflexivity.
  - intros w' other Hother.
    unfold start, bind, read_target, call, emit. cbn [fst snd TARGET_CHAT_ID trace].
    destruct (Z.eqb_spec 0 other) as [<-|_]; [congruence|reflexivity].
  - destruct (process_zero_sends_nothing steps (tr ++ evs1)) as (evs & -> & Hevs).
    cbn [trace]. rewrite drop_app_length. exact Hevs.
Qed.
